(** * Vector relational functions of GLM (glm/core/func_vector_relational.hpp)

    A shallow embedding of the nine function templates of the header
    ([lessThan], [lessThanEqual], [greaterThan], [greaterThanEqual],
    [equal], [notEqual], [any], [all], [not_]) and the proofs of their
    component-wise and reduction properties.

    The header only holds the function templates.  What it takes from
    [_detail.hpp] and the vector headers (the vector class templates, their
    [value_size()], [operator[]] and the [null] constructor tag, the scalar
    operators) is modelled first: the scalars with their six operators, the
    loop, and the vectors with their indexing. *)

From Stdlib Require Import ZArith Bool Lia.
From Stdlib Require Import Floats.SpecFloat.
From stdpp Require Import base option list fin vector.

Set Default Proof Using "Type".

(** ** Scalars

    [T] of [vecType<T>]: the built-in scalar types.  The header uses the six
    built-in operators of [T]; the four ordering functions statically assert
    [detail::is_bool<T>::_NO], the two equality functions do not.  The two
    classes follow that split: the assertion is a field of [OrdScalar], the
    class the four ordering functions ask of [T].  [bool] is an [EqScalar]
    and can have no [OrdScalar] instance, so an ordering function applied to
    a boolean vector does not type-check. *)

Definition is_bool_NO (T : Type) : Prop := T ≠ bool.

Class EqScalar (T : Type) := {
  op_eq : T → T → bool;                         (* a == b *)
  op_ne : T → T → bool;                         (* a != b *)
  (* [expr.eq]: for the built-in types, != yields the negation of == *)
  op_ne_negb : ∀ a b, op_ne a b = negb (op_eq a b)
}.

Class OrdScalar (T : Type) `{EqScalar T} := {
  op_lt : T → T → bool;                         (* a < b *)
  op_le : T → T → bool;                         (* a <= b *)
  op_gt : T → T → bool;                         (* a > b *)
  op_ge : T → T → bool;                         (* a >= b *)
  (* GLM_STATIC_ASSERT(detail::is_bool<T>::_NO, ...), lines 64, 87, 109, 131 *)
  static_assert_is_bool_NO : is_bool_NO T
}.

(** A type with three values that differ is not [bool]. *)
Lemma three_values_not_bool (T : Type) (a b c : T) :
  a ≠ b → a ≠ c → b ≠ c → is_bool_NO T.
Proof.
  intros Hab Hac Hbc HT. revert a b c Hab Hac Hbc. rewrite HT.
  intros [] [] []; congruence.
Qed.

Lemma Z_is_bool_NO : is_bool_NO Z.
Proof. by apply (three_values_not_bool Z 0 1 2)%Z. Qed.

Lemma float_is_bool_NO : is_bool_NO spec_float.
Proof.
  by apply (three_values_not_bool spec_float
              (S754_zero false) (S754_zero true) S754_nan).
Qed.

(** Integer scalars ([int], [unsigned int] and the sized integers): the
    value as a [Z]; the comparisons are the mathematical ones on every
    representable value. *)
#[export] Instance Z_EqScalar : EqScalar Z :=
  {| op_eq := Z.eqb;
     op_ne := λ a b, negb (Z.eqb a b);
     op_ne_negb := λ a b, eq_refl |}.

#[export] Instance Z_OrdScalar : OrdScalar Z :=
  {| op_lt := Z.ltb; op_le := Z.leb; op_gt := Z.gtb; op_ge := Z.geb;
     static_assert_is_bool_NO := Z_is_bool_NO |}.

(** Floating-point scalars ([float], [double]): IEEE 754 values and their
    comparison, which is partial: a NaN is unordered with every value,
    itself included.  Every operator is false on unordered operands, except
    [!=], which is true. *)
Definition float_eq (a b : spec_float) : bool :=
  match SFcompare a b with Some Eq => true | _ => false end.
Definition float_ne (a b : spec_float) : bool :=
  match SFcompare a b with Some Eq => false | _ => true end.
Definition float_lt (a b : spec_float) : bool :=
  match SFcompare a b with Some Lt => true | _ => false end.
Definition float_le (a b : spec_float) : bool :=
  match SFcompare a b with Some (Lt | Eq) => true | _ => false end.
Definition float_gt (a b : spec_float) : bool :=
  match SFcompare a b with Some Gt => true | _ => false end.
Definition float_ge (a b : spec_float) : bool :=
  match SFcompare a b with Some (Gt | Eq) => true | _ => false end.

Lemma float_ne_negb (a b : spec_float) : float_ne a b = negb (float_eq a b).
Proof.
  unfold float_eq, float_ne. destruct (SFcompare a b) as [[]|]; reflexivity.
Qed.

#[export] Instance float_EqScalar : EqScalar spec_float :=
  {| op_eq := float_eq; op_ne := float_ne; op_ne_negb := float_ne_negb |}.

#[export] Instance float_OrdScalar : OrdScalar spec_float :=
  {| op_lt := float_lt; op_le := float_le; op_gt := float_gt; op_ge := float_ge;
     static_assert_is_bool_NO := float_is_bool_NO |}.

(** Boolean scalars: equality only. *)
Lemma xorb_negb_eqb (a b : bool) : xorb a b = negb (Bool.eqb a b).
Proof. by destruct a, b. Qed.

#[export] Instance bool_EqScalar : EqScalar bool :=
  {| op_eq := Bool.eqb; op_ne := xorb; op_ne_negb := xorb_negb_eqb |}.

(** ** The loop

    [for(size_type i = 0; i < n; ++i) body]: the body neither writes [i] nor
    changes [n], so it runs for i = 0, 1, ..., n-1; [for_from k i] runs the
    [k] iterations that start at index [i].  A body that fails (an index
    assertion) ends the loop with the failure. *)
Fixpoint for_from {St : Type} (k i : nat) (body : nat → St → option St) (s : St)
    : option St :=
  match k with
  | O => Some s
  | S k' => s' ← body i s; for_from k' (S i) body s'
  end.

(** The same [for] statement run test by test, as it is written: each unit
    of [fuel] pays for one evaluation of the test [i < n]; when the test
    holds the body runs and [++i] follows, when it fails the loop is over.
    [None] is a loop still running when the fuel ran out, [Some r] a loop
    that ended with [r] (the state, or the failure of the body). *)
Fixpoint for_steps {St : Type} (fuel i n : nat) (body : nat → St → option St)
    (s : St) : option (option St) :=
  match fuel with
  | O => None
  | S fuel' =>
      if decide (i < n) then
        match body i s with
        | Some s' => for_steps fuel' (S i) n body s'
        | None => Some None
        end
      else Some (Some s)
  end.

Definition for_range {St : Type} (n : nat) (body : nat → St → option St) (s : St)
    : option St :=
  for_from n 0 body s.

Section vector_relational.

(** ** Vectors

    The vector class templates [vecType<T>] (tvec2, tvec3, tvec4) are not in
    this header.  Following the specification, a [vecType<T>] is an ordered
    sequence of exactly N elements of [T], indexable by position 0..N-1, and
    [vecType<T>::bool_type] is the boolean vector of the same N: [vec T N]
    and [vec bool N], with N part of the type. *)
Context {N : nat}.

(** Modelled from the spec: [vecType<bool>::value_size()], the element count
    N of the vector type. *)
Definition value_size : nat := N.

(** Modelled from the spec: [v[i]] read through [operator[]], the element at
    position [i].  Indexing outside 0..N-1 is the one failure the vector
    classes have (their index assertion), [None] here. *)
Definition at_ {T : Type} (v : vec T N) (i : nat) : option T :=
  vec_to_list v !! i.

(** Modelled from the spec: [v[i] = a] through [operator[]], the vector with
    position [i] overwritten, under the same index assertion. *)
Definition set_at {T : Type} (v : vec T N) (i : nat) (a : T)
    : option (vec T N) :=
  match decide (i < N) with
  | left Hi => Some (vinsert (nat_to_fin Hi) a v)
  | right _ => None
  end.

(** [Result(vecType<bool>::null)]: the header builds every result vector
    from the [null] constructor tag and then assigns each component.  What
    the components hold before the assignments is not this header's
    business: it is a parameter of the development. *)
Variable null : vec bool N.

(** ** The functions of the header

    Each comparison is the loop [Result[i] = x[i] OP y[i]] over
    i = 0 .. value_size()-1, started from [Result(null)]. *)

(** lessThan (lines 55-72): [Result[i] = x[i] < y[i]]. *)
Definition lessThan {T} `{OrdScalar T} (x y : vec T N) : option (vec bool N) :=
  for_range value_size
    (λ i Result, a ← at_ x i; b ← at_ y i; set_at Result i (op_lt a b))
    null.

(** lessThanEqual (lines 78-94): [Result[i] = x[i] <= y[i]]. *)
Definition lessThanEqual {T} `{OrdScalar T} (x y : vec T N)
    : option (vec bool N) :=
  for_range value_size
    (λ i Result, a ← at_ x i; b ← at_ y i; set_at Result i (op_le a b))
    null.

(** greaterThan (lines 100-116): [Result[i] = x[i] > y[i]]. *)
Definition greaterThan {T} `{OrdScalar T} (x y : vec T N)
    : option (vec bool N) :=
  for_range value_size
    (λ i Result, a ← at_ x i; b ← at_ y i; set_at Result i (op_gt a b))
    null.

(** greaterThanEqual (lines 122-138): [Result[i] = x[i] >= y[i]]. *)
Definition greaterThanEqual {T} `{OrdScalar T} (x y : vec T N)
    : option (vec bool N) :=
  for_range value_size
    (λ i Result, a ← at_ x i; b ← at_ y i; set_at Result i (op_ge a b))
    null.

(** equal (lines 144-158): [Result[i] = x[i] == y[i]]; no assertion on [T]
    being boolean or not. *)
Definition equal {T} `{EqScalar T} (x y : vec T N) : option (vec bool N) :=
  for_range value_size
    (λ i Result, a ← at_ x i; b ← at_ y i; set_at Result i (op_eq a b))
    null.

(** notEqual (lines 164-178): [Result[i] = x[i] != y[i]]. *)
Definition notEqual {T} `{EqScalar T} (x y : vec T N) : option (vec bool N) :=
  for_range value_size
    (λ i Result, a ← at_ x i; b ← at_ y i; set_at Result i (op_ne a b))
    null.

(** any (lines 184-194): [bool Result = false], then
    [Result = Result || v[i]] for each index; [||] does not evaluate [v[i]]
    once [Result] is true. *)
Definition any (v : vec bool N) : option bool :=
  for_range value_size
    (λ i Result, if Result : bool then Some true else at_ v i)
    false.

(** all (lines 200-210): [bool Result = true], then
    [Result = Result && v[i]] for each index; [&&] does not evaluate [v[i]]
    once [Result] is false. *)
Definition all (v : vec bool N) : option bool :=
  for_range value_size
    (λ i Result, if Result : bool then at_ v i else Some false)
    true.

(** not_ (lines 217-227): [Result[i] = !v[i]]. *)
Definition not_ (v : vec bool N) : option (vec bool N) :=
  for_range value_size
    (λ i Result, a ← at_ v i; set_at Result i (negb a))
    null.

End vector_relational.

Arguments value_size : clear implicits.

(** The floating-point vector (NaN, 1.0), 1.0 written as the double
    2^52 * 2^-52. *)
Definition nan_one : vec spec_float 2 :=
  [# S754_nan; S754_finite false 4503599627370496 (-52)].

(** ** Indexing and the loop *)

Section indexing.
Context {N : nat} {T : Type}.
Implicit Types (v : vec T N) (i : nat) (j : fin N).

Lemma at_fin v j : at_ v j = Some (v !!! j).
Proof. unfold at_. by apply vlookup_lookup. Qed.

Lemma at_lt v i : i < N → ∃ j, fin_to_nat j = i ∧ at_ v i = Some (v !!! j).
Proof.
  intros Hi. exists (nat_to_fin Hi).
  split; [apply fin_to_nat_to_fin|].
  rewrite <-(fin_to_nat_to_fin _ _ Hi) at 1. apply at_fin.
Qed.

Lemma at_ge v i : N ≤ i → at_ v i = None.
Proof.
  intros Hi. unfold at_. apply lookup_ge_None_2.
  by rewrite length_vec_to_list.
Qed.

Lemma set_at_fin v j a : set_at v j a = Some (vinsert j a v).
Proof.
  unfold set_at. destruct (decide (j < N)) as [Hj|Hj].
  - by rewrite nat_to_fin_to_nat.
  - destruct Hj. apply fin_to_nat_lt.
Qed.

Lemma set_at_ge v i a : N ≤ i → set_at v i a = None.
Proof. intros Hi. unfold set_at. destruct (decide (i < N)); [lia|done]. Qed.

Lemma vec_to_list_set_at v i a w :
  set_at v i a = Some w → vec_to_list w = <[i:=a]> (vec_to_list v).
Proof.
  unfold set_at. destruct (decide (i < N)) as [Hi|]; [|done].
  intros [= <-]. by rewrite vec_to_list_insert, fin_to_nat_to_fin.
Qed.

End indexing.

Section loops.
Context {St : Type}.
Implicit Types (body : nat → St → option St) (s : St).

Lemma for_from_ext body1 body2 k i s :
  (∀ j s', i ≤ j < i + k → body1 j s' = body2 j s') →
  for_from k i body1 s = for_from k i body2 s.
Proof.
  revert i s. induction k as [|k IH]; intros i s Hb; [done|].
  simpl. rewrite Hb by lia. destruct (body2 i s) as [s'|]; [|done].
  simpl. apply IH. intros j s'' ?. apply Hb. lia.
Qed.



(** With fewer than [n + 1] tests paid for, a loop whose body does not fail
    is still running. *)
Lemma for_steps_out_of_fuel body k i fuel s :
  fuel ≤ k →
  (∀ j s', i ≤ j < i + k → is_Some (body j s')) →
  for_steps fuel i (i + k) body s = None.
Proof.
  revert i k s. induction fuel as [|fuel IH]; intros i k s Hfuel Hbody;
    [done|].
  destruct k as [|k]; [lia|]. simpl.
  destruct (decide (i < i + S k)); [|lia].
  destruct (Hbody i s) as [s' ->]; [lia|].
  replace (i + S k) with (S i + k) by lia. apply IH; [lia|].
  intros j s'' ?. apply Hbody. lia.
Qed.

End loops.

(** The loop [Result[i] = e(i)] over a window of indices: it succeeds when
    [e] does on the window, writes [e(i)] at every index of the window and
    leaves the other components as they were. *)
Lemma for_from_fill {N} (e : nat → option bool) k i (R : vec bool N) :
  i + k ≤ N →
  (∀ j, i ≤ j < i + k → is_Some (e j)) →
  ∃ R', for_from k i (λ j Result, b ← e j; set_at Result j b) R = Some R' ∧
        ∀ j : fin N,
          (i ≤ j < i + k → e j = Some (R' !!! j)) ∧
          (¬ i ≤ j < i + k → R' !!! j = R !!! j).
Proof.
  revert i R. induction k as [|k IH]; intros i R Hk He.
  - exists R. split; [done|]. intros j. split; [lia|done].
  - destruct (He i) as [b Hb]; [lia|].
    destruct (at_lt R i) as (i' & Hi' & _); [lia|]. subst i.
    destruct (IH (S i') (vinsert i' b R)) as (R' & HR' & Hfill).
    { lia. } { intros j ?. apply He. lia. }
    exists R'. split.
    { simpl. rewrite Hb. simpl. by rewrite set_at_fin. }
    intros j. destruct (Hfill j) as [Hin Hout]. split.
    + intros Hj. destruct (decide (i' = j)) as [->|Hne].
      * rewrite Hout by lia. by rewrite vlookup_insert.
      * apply Hin. assert (fin_to_nat i' ≠ fin_to_nat j) by (by intros ?%(inj _)). lia.
    + intros Hj. rewrite Hout by lia. apply vlookup_insert_ne.
      intros ->. lia.
Qed.

(** Over the whole range the loop builds the vector of the [e(i)], whatever
    the vector it started from held. *)
Lemma for_range_fill {N} (e : nat → option bool) (g : fin N → bool)
    (R : vec bool N) :
  (∀ j : fin N, e j = Some (g j)) →
  for_range N (λ j Result, b ← e j; set_at Result j b) R = Some (fun_to_vec g).
Proof.
  intros He. unfold for_range.
  destruct (for_from_fill e N 0 R) as (R' & -> & Hfill); [lia| |].
  { intros j Hj. destruct (at_lt R j) as (j' & <- & _); [lia|].
    rewrite He. by eexists. }
  f_equal. apply vec_eq. intros j. rewrite lookup_fun_to_vec.
  destruct (Hfill j) as [Hin _].
  pose proof (fin_to_nat_lt j).
  specialize (Hin ltac:(lia)). rewrite He in Hin. congruence.
Qed.

(** ** What each function computes *)

Section closed_forms.
Context {N : nat}.
Implicit Types (null v : vec bool N).

(** The loop the six comparisons share, for any scalar operator [op]. *)
Lemma compare_loop {T} (op : T → T → bool) null (x y : vec T N) :
  for_range N
    (λ i Result, a ← at_ x i; b ← at_ y i; set_at Result i (op a b)) null
  = Some (vzip_with op x y).
Proof.
  pose (e := λ i, a ← at_ x i; b ← at_ y i; Some (op a b)).
  unfold for_range.
  rewrite (for_from_ext _ (λ i Result, c ← e i; set_at Result i c)).
  - fold (for_range N (λ i Result, c ← e i; set_at Result i c) null).
    rewrite (for_range_fill e (λ j, op (x !!! j) (y !!! j))).
    + f_equal. apply vec_eq. intros j.
      by rewrite lookup_fun_to_vec, vlookup_zip_with.
    + intros j. unfold e. by rewrite !at_fin.
  - intros j R _. unfold e.
    destruct (at_ x j); [|done]. simpl. by destruct (at_ y j).
Qed.

Lemma lessThan_zip `{OrdScalar T} null (x y : vec T N) :
  lessThan null x y = Some (vzip_with op_lt x y).
Proof. apply compare_loop. Qed.

Lemma lessThanEqual_zip `{OrdScalar T} null (x y : vec T N) :
  lessThanEqual null x y = Some (vzip_with op_le x y).
Proof. apply compare_loop. Qed.

Lemma greaterThan_zip `{OrdScalar T} null (x y : vec T N) :
  greaterThan null x y = Some (vzip_with op_gt x y).
Proof. apply compare_loop. Qed.

Lemma greaterThanEqual_zip `{OrdScalar T} null (x y : vec T N) :
  greaterThanEqual null x y = Some (vzip_with op_ge x y).
Proof. apply compare_loop. Qed.

Lemma equal_zip `{EqScalar T} null (x y : vec T N) :
  equal null x y = Some (vzip_with op_eq x y).
Proof. apply compare_loop. Qed.

Lemma notEqual_zip `{EqScalar T} null (x y : vec T N) :
  notEqual null x y = Some (vzip_with op_ne x y).
Proof. apply compare_loop. Qed.

Lemma not__map null v : not_ null v = Some (vmap negb v).
Proof.
  pose (e := λ i, a ← at_ v i; Some (negb a)).
  unfold not_, value_size, for_range.
  rewrite (for_from_ext _ (λ i Result, c ← e i; set_at Result i c)).
  - fold (for_range N (λ i Result, c ← e i; set_at Result i c) null).
    rewrite (for_range_fill e (λ j, negb (v !!! j))).
    + f_equal. apply vec_eq. intros j.
      by rewrite lookup_fun_to_vec, vlookup_map.
    + intros j. unfold e. by rewrite at_fin.
  - intros j R _. unfold e. by destruct (at_ v j).
Qed.

(** [any]: after the iterations from [i] on, [Result] is its value before
    them or-ed with the components from [i] on. *)
Lemma any_from v k i (Result : bool) :
  i + k = N →
  for_from k i (λ i Result, if Result : bool then Some true else at_ v i)
    Result
  = Some (Result || existsb (λ b, b) (drop i (vec_to_list v))).
Proof.
  revert i Result. induction k as [|k IH]; intros i Result Hk.
  - rewrite drop_ge by (rewrite length_vec_to_list; lia).
    simpl. by rewrite orb_false_r.
  - destruct (at_lt v i) as (j & <- & Hj); [lia|].
    rewrite (drop_S _ (v !!! j) j) by (by apply vlookup_lookup).
    simpl. destruct Result; simpl.
    + by rewrite IH by lia.
    + rewrite Hj. simpl. by rewrite IH by lia.
Qed.

Lemma any_existsb v : any v = Some (existsb (λ b, b) (vec_to_list v)).
Proof. unfold any, for_range. by rewrite any_from. Qed.

(** [all]: the same with [&&]. *)
Lemma all_from v k i (Result : bool) :
  i + k = N →
  for_from k i (λ i Result, if Result : bool then at_ v i else Some false)
    Result
  = Some (Result && forallb (λ b, b) (drop i (vec_to_list v))).
Proof.
  revert i Result. induction k as [|k IH]; intros i Result Hk.
  - rewrite drop_ge by (rewrite length_vec_to_list; lia).
    simpl. by rewrite andb_true_r.
  - destruct (at_lt v i) as (j & <- & Hj); [lia|].
    rewrite (drop_S _ (v !!! j) j) by (by apply vlookup_lookup).
    simpl. destruct Result; simpl.
    + rewrite Hj. simpl. by rewrite IH by lia.
    + by rewrite IH by lia.
Qed.

Lemma all_forallb v : all v = Some (forallb (λ b, b) (vec_to_list v)).
Proof. unfold all, for_range. by rewrite all_from. Qed.

Lemma existsb_vec v :
  existsb (λ b, b) (vec_to_list v) = true ↔ ∃ j : fin N, v !!! j = true.
Proof.
  rewrite existsb_exists. split.
  - intros (b & Hb%list_elem_of_In%elem_of_vlookup & ->). done.
  - intros [j Hj]. exists true. split; [|done].
    apply list_elem_of_In, elem_of_vlookup. by exists j.
Qed.

Lemma forallb_vec v :
  forallb (λ b, b) (vec_to_list v) = true ↔ ∀ j : fin N, v !!! j = true.
Proof.
  rewrite forallb_forall. split.
  - intros Hall j. apply Hall, list_elem_of_In, elem_of_vlookup. by exists j.
  - intros Hall b [j <-]%list_elem_of_In%elem_of_vlookup. apply Hall.
Qed.

End closed_forms.

(** ** The scenarios of the specification, run on the embedding

    The result vectors start from stale contents, to show that the loops
    overwrite them. *)

Example scenario_int3 :
  let x := [# 1; 2; 3]%Z in
  let y := [# 3; 2; 1]%Z in
  let stale := [# true; true; true] in
  lessThan stale x y = Some [# true; false; false] ∧
  equal stale x y = Some [# false; true; false] ∧
  (equal stale x y ≫= any) = Some true ∧
  (equal stale x y ≫= all) = Some false.
Proof. vm_compute. done. Qed.

Example scenario_bool2 :
  let v := [# true; false] in
  not_ [# true; false] v = Some [# false; true] ∧
  any v = Some true ∧ all v = Some false.
Proof. vm_compute. done. Qed.

Example scenario_zero2 :
  let x := [# 0; 0]%Z in
  notEqual [# true; true] x x = Some [# false; false] ∧
  (notEqual [# true; true] x x ≫= any) = Some false.
Proof. vm_compute. done. Qed.

(** An index outside 0..N-1 is the failure of the model. *)
Example at_out_of_range : at_ [# true; false] 2 = None.
Proof. reflexivity. Qed.

Example set_at_out_of_range : set_at [# true; false] 2 true = None.
Proof. reflexivity. Qed.

(** ** Reflexivity of the scalar [==]

    It holds for the integer and boolean scalars, and for a floating-point
    value exactly when the value is not a NaN. *)

Lemma Z_op_eq_refl (a : Z) : op_eq a a = true.
Proof. apply Z.eqb_refl. Qed.

Lemma bool_op_eq_refl (a : bool) : op_eq a a = true.
Proof. by destruct a. Qed.

Lemma SFcompare_refl (a : spec_float) :
  a ≠ S754_nan → SFcompare a a = Some Eq.
Proof.
  destruct a as [s|s| |s m e]; intros Hnan; try done.
  - by destruct s.
  - simpl. rewrite Z.compare_refl, Pos.compare_cont_refl. by destruct s.
Qed.

Lemma float_op_eq_refl (a : spec_float) : op_eq a a = true ↔ a ≠ S754_nan.
Proof.
  simpl. unfold float_eq. split.
  - by intros Heq ->.
  - intros Hnan. by rewrite SFcompare_refl.
Qed.

Example equal_nan_one (null : vec bool 2) :
  equal null nan_one nan_one = Some [# false; true] ∧
  notEqual null nan_one nan_one = Some [# true; false].
Proof. by rewrite equal_zip, notEqual_zip. Qed.

(** ** The properties of the specification *)


(** C2: [any(v)] is true if and only if at least one component of [v] is
    true; it is false when every component is false, and false for a vector
    of length zero. *)
Theorem C2_any_iff_some_true :
  ∀ (N : nat) (v : vec bool N),
    (∃ b : bool, any v = Some b ∧ (b = true ↔ ∃ i : fin N, v !!! i = true)) ∧
    ((∀ i : fin N, v !!! i = false) → any v = Some false) ∧
    (∀ v0 : vec bool 0, any v0 = Some false).
Proof.
  intros N v. split; [|split].
  - eexists. split; [apply any_existsb|]. apply existsb_vec.
  - intros Hall. rewrite any_existsb. f_equal.
    apply not_true_is_false. intros [i Hi]%existsb_vec.
    rewrite Hall in Hi. discriminate.
  - intros v0. by inv_vec v0.
Qed.

(** C3: [all(v)] is true if and only if every component of [v] is true; it
    is true for a vector of length zero. *)
Theorem C3_all_iff_every_true :
  ∀ (N : nat) (v : vec bool N),
    (∃ b : bool, all v = Some b ∧ (b = true ↔ ∀ i : fin N, v !!! i = true)) ∧
    (∀ v0 : vec bool 0, all v0 = Some true).
Proof.
  intros N v. split.
  - eexists. split; [apply all_forallb|]. apply forallb_vec.
  - intros v0. by inv_vec v0.
Qed.

(** C4: [not_(v)] returns a boolean vector of the size of [v] whose component
    at each index [i] is the negation of [v[i]]. *)
Theorem C4_not_componentwise :
  ∀ (N : nat) (null v : vec bool N),
    ∃ r : vec bool N, not_ null v = Some r ∧
      length (vec_to_list r) = length (vec_to_list v) ∧
      ∀ i : fin N, r !!! i = negb (v !!! i).
Proof.
  intros N null v. exists (vmap negb v).
  split; [apply not__map|]. split.
  - by rewrite !length_vec_to_list.
  - intros i. apply vlookup_map.
Qed.


(** C6, as the specification states it, fails on floating-point vectors: on
    (NaN, 1.0), [equal(x,x)] is (false, true) and not all-true. *)
Lemma C6_reflexivity_fails_on_nan :
  ¬ (∀ (T : Type) (E : EqScalar T) (N : nat) (null : vec bool N) (x : vec T N),
       equal null x x = Some (vreplicate N true) ∧
       notEqual null x x = Some (vreplicate N false)).
Proof.
  intros Hrefl.
  destruct (Hrefl spec_float _ 2 [# false; false] nan_one) as [Heq _].
  destruct (equal_nan_one [# false; false]) as [Heq' _].
  rewrite Heq' in Heq. discriminate.
Qed.

(** C6, amended: for every vector [x] each of whose components compares equal
    to itself under the scalar [==] (every integer and boolean value, and
    every floating-point value that is not a NaN), [equal(x,x)] is the
    all-true vector and [notEqual(x,x)] is the all-false vector. *)
Theorem C6_equal_self :
  ∀ (T : Type) (E : EqScalar T) (N : nat) (null : vec bool N) (x : vec T N),
    (∀ i : fin N, op_eq (x !!! i) (x !!! i) = true) →
    equal null x x = Some (vreplicate N true) ∧
    notEqual null x x = Some (vreplicate N false).
Proof.
  intros T E N null x Hself. rewrite equal_zip, notEqual_zip.
  split; f_equal; apply vec_eq; intros i;
    rewrite vlookup_zip_with, vlookup_replicate, ?op_ne_negb, Hself; done.
Qed.

(** The amended C6 at the integer vector (1, 2, 3), from a stale result
    vector. *)
Lemma C6_equal_self_witness :
  let x := [# 1; 2; 3]%Z in
  let stale := [# false; true; false] in
  (∀ i : fin 3, op_eq (x !!! i) (x !!! i) = true) ∧
  equal stale x x = Some [# true; true; true] ∧
  notEqual stale x x = Some [# false; false; false].
Proof.
  intros x stale.
  assert (Hself : ∀ i : fin 3, op_eq (x !!! i) (x !!! i) = true)
    by (intros i; apply Z.eqb_refl).
  split; [exact Hself|].
  exact (C6_equal_self Z _ 3 stale x Hself).
Defined.

(** C7: [all(v)] is the negation of [any] applied to the complement of [v]:
    all(v) == !any(not_(v)). *)
Theorem C7_all_de_morgan :
  ∀ (N : nat) (null v : vec bool N),
    all v = negb <$> (not_ null v ≫= any).
Proof.
  intros N null v. rewrite not__map. simpl.
  rewrite all_forallb, any_existsb. simpl. f_equal.
  rewrite vec_to_list_map.
  induction (vec_to_list v) as [|b l IH]; [done|].
  simpl. rewrite IH. by destruct b.
Qed.

(** C8: the complement of the complement of [v] is [v]:
    not_(not_(v)) == v. *)
Theorem C8_not_involutive :
  ∀ (N : nat) (null null' v : vec bool N),
    not_ null v ≫= not_ null' = Some v.
Proof.
  intros N null null' v. rewrite not__map. simpl. rewrite not__map.
  f_equal. apply vec_eq. intros i.
  rewrite !vlookup_map. apply negb_involutive.
Qed.


(** C10: for same-size vectors [x] and [y] of one scalar type,
    [notEqual(x,y)] is the complement of [equal(x,y)]:
    notEqual(x,y) == not_(equal(x,y)). *)
Theorem C10_notEqual_is_not_equal :
  ∀ (T : Type) (E : EqScalar T) (N : nat) (null null' null'' : vec bool N)
    (x y : vec T N),
    notEqual null x y = equal null' x y ≫= not_ null''.
Proof.
  intros T E N null null' null'' x y.
  rewrite notEqual_zip, equal_zip. simpl. rewrite not__map.
  f_equal. apply vec_eq. intros i.
  rewrite vlookup_map, !vlookup_zip_with. apply op_ne_negb.
Qed.

(** ** Further properties of the functions

    Facts about the scalar operators first, then what they give for the
    vector functions and their compositions. *)

Lemma SFcompare_swap (a b : spec_float) :
  SFcompare b a = CompOpp <$> SFcompare a b.
Proof.
  destruct a as [s|s| |s m e], b as [s'|s'| |s' m' e']; simpl;
    try (by destruct s); try (by destruct s'); try (by destruct s, s');
    try done.
  pose proof (Pos.compare_cont_antisym m m' Eq) as Hm. simpl in Hm.
  destruct s, s'; simpl; try done;
    rewrite (Z.compare_antisym e e'); destruct (e ?= e')%Z; simpl; try done;
    by rewrite <-Hm, ?CompOpp_involutive.
Qed.

Lemma SFcompare_nan_r (a : spec_float) : SFcompare a S754_nan = None.
Proof. by destruct a. Qed.

Lemma SFcompare_ordered (a b : spec_float) :
  a ≠ S754_nan → b ≠ S754_nan → is_Some (SFcompare a b).
Proof. destruct a, b; simpl; intros ? ?; by eauto. Qed.

Lemma float_gt_lt (a b : spec_float) : float_gt a b = float_lt b a.
Proof.
  unfold float_gt, float_lt. rewrite (SFcompare_swap a b).
  by destruct (SFcompare a b) as [[]|].
Qed.

Lemma float_ge_le (a b : spec_float) : float_ge a b = float_le b a.
Proof.
  unfold float_ge, float_le. rewrite (SFcompare_swap a b).
  by destruct (SFcompare a b) as [[]|].
Qed.

Lemma float_eq_sym (a b : spec_float) : float_eq a b = float_eq b a.
Proof.
  unfold float_eq. rewrite (SFcompare_swap a b).
  by destruct (SFcompare a b) as [[]|].
Qed.

Lemma float_lt_irrefl (a : spec_float) : float_lt a a = false.
Proof.
  unfold float_lt. destruct a as [s|s| |s m e]; [| |done|];
    by rewrite SFcompare_refl.
Qed.

Lemma vzip_with_flip {A B N} (f g : A → A → B) (x y : vec A N) :
  (∀ a b, f a b = g b a) → vzip_with f x y = vzip_with g y x.
Proof.
  intros Hfg. apply vec_eq. intros i. by rewrite !vlookup_zip_with.
Qed.

Lemma existsb_negb_forallb (l : list bool) :
  existsb (λ b, b) l = negb (forallb (λ b, b) (map negb l)).
Proof. induction l as [|[] l IH]; simpl; by rewrite ?IH. Qed.

(** X1: [any(v)] is the negation of [all] applied to the complement of [v]:
    any(v) == !all(not_(v)), the dual of the De Morgan law between [all] and
    [any]. *)
Theorem any_de_morgan :
  ∀ (N : nat) (null v : vec bool N),
    any v = negb <$> (not_ null v ≫= all).
Proof.
  intros N null v. rewrite not__map. simpl.
  rewrite all_forallb, any_existsb. simpl.
  by rewrite vec_to_list_map, existsb_negb_forallb.
Qed.

(** X2: on a vector with at least one component, [all(v)] true implies
    [any(v)] true.  (On the vector of length zero [all] is true and [any]
    false.) *)
Theorem all_implies_any :
  ∀ (N : nat) (v : vec bool N),
    0 < N → all v = Some true → any v = Some true.
Proof.
  intros N v HN. rewrite all_forallb, any_existsb.
  intros [= Hall]. f_equal. apply existsb_vec.
  destruct N as [|N]; [lia|]. exists 0%fin.
  by apply (proj1 (forallb_vec v)).
Qed.

(** [all_implies_any] at the vector (true, true). *)
Lemma all_implies_any_witness :
  let v := [# true; true] in
  0 < 2 ∧ all v = Some true ∧ any v = Some true.
Proof.
  intros v. split; [lia|]. split; [reflexivity|].
  apply (all_implies_any 2 v); [lia|reflexivity].
Defined.

(** X3: [any(v)] is false exactly on the all-false vector and [all(v)] is
    true exactly on the all-true vector. *)
Theorem any_false_all_true_iff :
  ∀ (N : nat) (v : vec bool N),
    (any v = Some false ↔ v = vreplicate N false) ∧
    (all v = Some true ↔ v = vreplicate N true).
Proof.
  intros N v. rewrite any_existsb, all_forallb. split; split.
  - intros [= Hex]. apply vec_eq. intros i. rewrite vlookup_replicate.
    apply not_true_is_false. intros Hi.
    rewrite (proj2 (existsb_vec v)) in Hex by eauto. discriminate.
  - intros ->. f_equal. apply not_true_is_false.
    intros [i Hi]%existsb_vec. rewrite vlookup_replicate in Hi. discriminate.
  - intros [= Hall]. apply vec_eq. intros i. rewrite vlookup_replicate.
    by apply (proj1 (forallb_vec v)).
  - intros ->. f_equal. apply forallb_vec. intros i.
    apply vlookup_replicate.
Qed.

Lemma forallb_negb_existsb (l : list bool) :
  forallb (λ b, b) l = negb (existsb (λ b, b) (map negb l)).
Proof. induction l as [|[] l IH]; simpl; by rewrite ?IH. Qed.

Lemma vzip_with_op_ne `{EqScalar T} {N} (x y : vec T N) :
  vzip_with op_ne x y = vmap negb (vzip_with op_eq x y).
Proof.
  apply vec_eq. intros i.
  rewrite vlookup_map, !vlookup_zip_with. apply op_ne_negb.
Qed.

(** X4: for every scalar type, [all(equal(x,y))] is the negation of
    [any(notEqual(x,y))]. *)
Theorem all_equal_not_any_notEqual :
  ∀ (T : Type) (E : EqScalar T) (N : nat) (null null' : vec bool N)
    (x y : vec T N),
    equal null x y ≫= all = negb <$> (notEqual null' x y ≫= any).
Proof.
  intros T E N null null' x y.
  rewrite equal_zip, notEqual_zip. simpl.
  rewrite all_forallb, any_existsb. simpl.
  by rewrite vzip_with_op_ne, vec_to_list_map, forallb_negb_existsb.
Qed.

(** X5: on integer vectors, [all(equal(x,y))] is true exactly when [x] and
    [y] are the same vector, and [any(notEqual(x,y))] is true exactly when
    they differ. *)
Theorem all_equal_iff_same_int :
  ∀ (N : nat) (null : vec bool N) (x y : vec Z N),
    (∃ b : bool, equal null x y ≫= all = Some b ∧ (b = true ↔ x = y)) ∧
    (∃ b : bool, notEqual null x y ≫= any = Some b ∧ (b = true ↔ x ≠ y)).
Proof.
  intros N null x y.
  assert (Hall : forallb (λ b, b) (vec_to_list (vzip_with op_eq x y)) = true
                 ↔ x = y).
  { rewrite forallb_vec. split.
    - intros Heq. apply vec_eq. intros i. specialize (Heq i).
      rewrite vlookup_zip_with in Heq. by apply Z.eqb_eq.
    - intros -> i. rewrite vlookup_zip_with. apply Z.eqb_refl. }
  rewrite equal_zip, notEqual_zip, vzip_with_op_ne.
  cbn [mbind option_bind].
  rewrite all_forallb, any_existsb. split; (eexists; split; [done|]).
  - done.
  - rewrite vec_to_list_map, <-Hall, forallb_negb_existsb.
    destruct (existsb _ _); simpl; split; congruence.
Qed.

(** X6: on integer and on floating-point vectors (NaN components included),
    [greaterThan(x,y)] is [lessThan(y,x)] and [greaterThanEqual(x,y)] is
    [lessThanEqual(y,x)]. *)
Theorem greaterThan_is_lessThan_swapped :
  ∀ (N : nat) (null null' : vec bool N),
    (∀ x y : vec Z N,
       greaterThan null x y = lessThan null' y x ∧
       greaterThanEqual null x y = lessThanEqual null' y x) ∧
    (∀ x y : vec spec_float N,
       greaterThan null x y = lessThan null' y x ∧
       greaterThanEqual null x y = lessThanEqual null' y x).
Proof.
  intros N null null'. split; intros x y;
    rewrite greaterThan_zip, greaterThanEqual_zip, lessThan_zip,
      lessThanEqual_zip;
    split; f_equal; apply vzip_with_flip; intros a b.
  - apply Z.gtb_ltb.
  - apply Z.geb_leb.
  - apply float_gt_lt.
  - apply float_ge_le.
Qed.

(** X7: on integer and on floating-point vectors, [lessThanEqual(x,y)] is the
    component-wise or of [lessThan(x,y)] and [equal(x,y)], and
    [greaterThanEqual(x,y)] that of [greaterThan(x,y)] and [equal(x,y)]. *)
Theorem lessThanEqual_is_lessThan_or_equal :
  ∀ (N : nat) (null : vec bool N),
    (∀ x y : vec Z N,
       lessThanEqual null x y
       = (lt ← lessThan null x y; eq ← equal null x y;
          Some (vzip_with orb lt eq)) ∧
       greaterThanEqual null x y
       = (gt ← greaterThan null x y; eq ← equal null x y;
          Some (vzip_with orb gt eq))) ∧
    (∀ x y : vec spec_float N,
       lessThanEqual null x y
       = (lt ← lessThan null x y; eq ← equal null x y;
          Some (vzip_with orb lt eq)) ∧
       greaterThanEqual null x y
       = (gt ← greaterThan null x y; eq ← equal null x y;
          Some (vzip_with orb gt eq))).
Proof.
  intros N null. split; intros x y;
    rewrite lessThanEqual_zip, greaterThanEqual_zip, lessThan_zip,
      greaterThan_zip, equal_zip;
    cbn [mbind option_bind];
    split; f_equal; apply vec_eq; intros i; rewrite !vlookup_zip_with.
  - simpl. destruct (Z.leb_spec (x !!! i) (y !!! i)),
      (Z.ltb_spec (x !!! i) (y !!! i)), (Z.eqb_spec (x !!! i) (y !!! i));
      simpl; done || lia.
  - simpl. rewrite Z.geb_leb, Z.gtb_ltb.
    destruct (Z.leb_spec (y !!! i) (x !!! i)),
      (Z.ltb_spec (y !!! i) (x !!! i)), (Z.eqb_spec (x !!! i) (y !!! i));
      simpl; done || lia.
  - simpl. unfold float_le, float_lt, float_eq.
    by destruct (SFcompare (x !!! i) (y !!! i)) as [[]|].
  - simpl. unfold float_ge, float_gt, float_eq.
    by destruct (SFcompare (x !!! i) (y !!! i)) as [[]|].
Qed.

(** X8: on integer vectors, [lessThanEqual(x,y)] is the complement of
    [greaterThan(x,y)] and [greaterThanEqual(x,y)] the complement of
    [lessThan(x,y)]. *)
Theorem lessThanEqual_is_not_greaterThan_int :
  ∀ (N : nat) (null null' null'' : vec bool N) (x y : vec Z N),
    lessThanEqual null x y = greaterThan null' x y ≫= not_ null'' ∧
    greaterThanEqual null x y = lessThan null' x y ≫= not_ null''.
Proof.
  intros N null null' null'' x y.
  rewrite lessThanEqual_zip, greaterThanEqual_zip, lessThan_zip,
    greaterThan_zip.
  cbn [mbind option_bind]. rewrite !not__map.
  split; f_equal; apply vec_eq; intros i;
    rewrite vlookup_map, !vlookup_zip_with; simpl.
  - rewrite Z.gtb_ltb, Z.ltb_antisym. by rewrite negb_involutive.
  - rewrite Z.geb_leb, Z.leb_antisym. done.
Qed.

(** X9: on floating-point vectors, at an index where [x] or [y] holds a NaN,
    [lessThan], [lessThanEqual], [greaterThan], [greaterThanEqual] and
    [equal] all give false and [notEqual] gives true; so there
    [lessThanEqual(x,y)] is not the complement of [greaterThan(x,y)]. *)
Theorem comparisons_at_nan :
  ∀ (N : nat) (null : vec bool N) (x y : vec spec_float N) (i : fin N),
    x !!! i = S754_nan ∨ y !!! i = S754_nan →
    (∃ r, lessThan null x y = Some r ∧ r !!! i = false) ∧
    (∃ r, lessThanEqual null x y = Some r ∧ r !!! i = false) ∧
    (∃ r, greaterThan null x y = Some r ∧ r !!! i = false) ∧
    (∃ r, greaterThanEqual null x y = Some r ∧ r !!! i = false) ∧
    (∃ r, equal null x y = Some r ∧ r !!! i = false) ∧
    (∃ r, notEqual null x y = Some r ∧ r !!! i = true).
Proof.
  intros N null x y i Hnan.
  assert (Hcmp : SFcompare (x !!! i) (y !!! i) = None).
  { destruct Hnan as [-> | ->]; [done|apply SFcompare_nan_r]. }
  rewrite lessThan_zip, lessThanEqual_zip, greaterThan_zip,
    greaterThanEqual_zip, equal_zip, notEqual_zip.
  repeat split; eexists; (split; [done|]); rewrite vlookup_zip_with; simpl.
  - unfold float_lt. by rewrite Hcmp.
  - unfold float_le. by rewrite Hcmp.
  - unfold float_gt. by rewrite Hcmp.
  - unfold float_ge. by rewrite Hcmp.
  - unfold float_eq. by rewrite Hcmp.
  - unfold float_ne. by rewrite Hcmp.
Qed.

(** [comparisons_at_nan] at x = y = (NaN, 1.0), index 0. *)
Lemma comparisons_at_nan_witness :
  let stale := [# true; false] in
  (nan_one !!! 0%fin = S754_nan ∨ nan_one !!! 0%fin = S754_nan) ∧
  (∃ r, lessThan stale nan_one nan_one = Some r ∧ r !!! 0%fin = false) ∧
  (∃ r, lessThanEqual stale nan_one nan_one = Some r ∧ r !!! 0%fin = false) ∧
  (∃ r, greaterThan stale nan_one nan_one = Some r ∧ r !!! 0%fin = false) ∧
  (∃ r, greaterThanEqual stale nan_one nan_one = Some r ∧ r !!! 0%fin = false) ∧
  (∃ r, equal stale nan_one nan_one = Some r ∧ r !!! 0%fin = false) ∧
  (∃ r, notEqual stale nan_one nan_one = Some r ∧ r !!! 0%fin = true).
Proof.
  intros stale.
  assert (Hnan : nan_one !!! 0%fin = S754_nan ∨ nan_one !!! 0%fin = S754_nan)
    by (left; reflexivity).
  split; [exact Hnan|].
  exact (comparisons_at_nan 2 stale nan_one nan_one 0%fin Hnan).
Defined.

(** X10: on floating-point vectors with no NaN component, as on integer
    vectors, [lessThanEqual(x,y)] is the complement of [greaterThan(x,y)] and
    [greaterThanEqual(x,y)] the complement of [lessThan(x,y)]. *)
Theorem lessThanEqual_is_not_greaterThan_float :
  ∀ (N : nat) (null null' null'' : vec bool N) (x y : vec spec_float N),
    (∀ i : fin N, x !!! i ≠ S754_nan ∧ y !!! i ≠ S754_nan) →
    lessThanEqual null x y = greaterThan null' x y ≫= not_ null'' ∧
    greaterThanEqual null x y = lessThan null' x y ≫= not_ null''.
Proof.
  intros N null null' null'' x y Hord.
  rewrite lessThanEqual_zip, greaterThanEqual_zip, lessThan_zip,
    greaterThan_zip.
  cbn [mbind option_bind]. rewrite !not__map.
  split; f_equal; apply vec_eq; intros i;
    rewrite vlookup_map, !vlookup_zip_with; simpl;
    destruct (Hord i) as [Hx Hy];
    destruct (SFcompare_ordered _ _ Hx Hy) as [c Hc].
  - unfold float_le, float_gt. rewrite Hc. by destruct c.
  - unfold float_ge, float_lt. rewrite Hc. by destruct c.
Qed.

(** [lessThanEqual_is_not_greaterThan_float] at x = (1.0, 1.0) and
    y = (+0.0, 1.0). *)
Lemma lessThanEqual_is_not_greaterThan_float_witness :
  let one := S754_finite false 4503599627370496 (-52) in
  let x := [# one; one] in
  let y := [# S754_zero false; one] in
  let stale := [# true; true] in
  (∀ i : fin 2, x !!! i ≠ S754_nan ∧ y !!! i ≠ S754_nan) ∧
  lessThanEqual stale x y = greaterThan stale x y ≫= not_ stale ∧
  greaterThanEqual stale x y = lessThan stale x y ≫= not_ stale.
Proof.
  intros one x y stale.
  assert (Hord : ∀ i : fin 2, x !!! i ≠ S754_nan ∧ y !!! i ≠ S754_nan).
  { intros i. inv_fin i; [by split|]. intros i. inv_fin i; [by split|].
    intros i. inv_fin i. }
  split; [exact Hord|].
  exact (lessThanEqual_is_not_greaterThan_float 2 stale stale stale x y Hord).
Defined.

(** X11: on integer and on floating-point vectors, [lessThan(x,x)] and
    [greaterThan(x,x)] are all-false, whatever [x] holds (NaN components
    included, unlike the reflexivity of [equal]). *)
Theorem lessThan_self_all_false :
  ∀ (N : nat) (null : vec bool N),
    (∀ x : vec Z N,
       lessThan null x x = Some (vreplicate N false) ∧
       greaterThan null x x = Some (vreplicate N false)) ∧
    (∀ x : vec spec_float N,
       lessThan null x x = Some (vreplicate N false) ∧
       greaterThan null x x = Some (vreplicate N false)).
Proof.
  intros N null. split; intros x; rewrite lessThan_zip, greaterThan_zip;
    split; f_equal; apply vec_eq; intros i;
    rewrite vlookup_zip_with, vlookup_replicate; simpl.
  - apply Z.ltb_irrefl.
  - rewrite Z.gtb_ltb. apply Z.ltb_irrefl.
  - apply float_lt_irrefl.
  - rewrite float_gt_lt. apply float_lt_irrefl.
Qed.

(** X12: [equal] and [notEqual] are symmetric in their arguments, on
    integer, floating-point and boolean vectors: equal(x,y) == equal(y,x)
    and notEqual(x,y) == notEqual(y,x). *)
Theorem equal_symmetric :
  ∀ (N : nat) (null null' : vec bool N),
    (∀ x y : vec Z N,
       equal null x y = equal null' y x ∧
       notEqual null x y = notEqual null' y x) ∧
    (∀ x y : vec spec_float N,
       equal null x y = equal null' y x ∧
       notEqual null x y = notEqual null' y x) ∧
    (∀ x y : vec bool N,
       equal null x y = equal null' y x ∧
       notEqual null x y = notEqual null' y x).
Proof.
  intros N null null'.
  assert (Hsym : ∀ T (E : EqScalar T) (x y : vec T N),
            (∀ a b : T, op_eq a b = op_eq b a) →
            equal null x y = equal null' y x ∧
            notEqual null x y = notEqual null' y x).
  { intros T E x y Hs. rewrite !equal_zip, !notEqual_zip.
    split; f_equal; apply vzip_with_flip; intros a b; [done|].
    by rewrite !op_ne_negb, Hs. }
  split; [|split]; intros x y; apply Hsym.
  - apply Z.eqb_sym.
  - apply float_eq_sym.
  - intros [] []; reflexivity.
Qed.

(** X13: on integer vectors, at every index exactly one of [lessThan(x,y)],
    [equal(x,y)] and [greaterThan(x,y)] is true, the one that the order of
    [x[i]] and [y[i]] names. *)
Theorem int_trichotomy :
  ∀ (N : nat) (null : vec bool N) (x y : vec Z N),
    ∃ lt eq gt : vec bool N,
      lessThan null x y = Some lt ∧ equal null x y = Some eq ∧
      greaterThan null x y = Some gt ∧
      ∀ i : fin N,
        (lt !!! i, eq !!! i, gt !!! i)
        = match (x !!! i ?= y !!! i)%Z with
          | Lt => (true, false, false)
          | Eq => (false, true, false)
          | Gt => (false, false, true)
          end.
Proof.
  intros N null x y. rewrite lessThan_zip, equal_zip, greaterThan_zip.
  do 3 eexists. repeat (split; [done|]). intros i.
  rewrite !vlookup_zip_with. simpl. rewrite Z.gtb_ltb.
  destruct (Z.compare_spec (x !!! i) (y !!! i)),
    (Z.ltb_spec (x !!! i) (y !!! i)), (Z.eqb_spec (x !!! i) (y !!! i)),
    (Z.ltb_spec (y !!! i) (x !!! i)); done || lia.
Qed.

(** X14: on integer vectors the component-wise strict order is transitive:
    if [all(lessThan(x,y))] and [all(lessThan(y,z))] are true, so is
    [all(lessThan(x,z))]. *)
Theorem all_lessThan_transitive_int :
  ∀ (N : nat) (null : vec bool N) (x y z : vec Z N),
    lessThan null x y ≫= all = Some true →
    lessThan null y z ≫= all = Some true →
    lessThan null x z ≫= all = Some true.
Proof.
  intros N null x y z. rewrite !lessThan_zip. cbn [mbind option_bind].
  rewrite !all_forallb. intros [= Hxy] [= Hyz]. f_equal.
  apply forallb_vec. intros i.
  pose proof (proj1 (forallb_vec _) Hxy i) as Hxy'.
  pose proof (proj1 (forallb_vec _) Hyz i) as Hyz'.
  rewrite vlookup_zip_with in *. simpl in *.
  apply Z.ltb_lt. apply Z.ltb_lt in Hxy', Hyz'. lia.
Qed.

(** [all_lessThan_transitive_int] at (1,2) < (3,4) < (5,6). *)
Lemma all_lessThan_transitive_int_witness :
  let x := [# 1; 2]%Z in
  let y := [# 3; 4]%Z in
  let z := [# 5; 6]%Z in
  let stale := [# false; false] in
  lessThan stale x y ≫= all = Some true ∧
  lessThan stale y z ≫= all = Some true ∧
  lessThan stale x z ≫= all = Some true.
Proof.
  intros x y z stale. split; [reflexivity|]. split; [reflexivity|].
  apply (all_lessThan_transitive_int 2 stale x y z); reflexivity.
Defined.

(** X15: on integer vectors [lessThanEqual] is antisymmetric: if
    [all(lessThanEqual(x,y))] and [all(lessThanEqual(y,x))] are true, then
    [x] and [y] are the same vector. *)
Theorem all_lessThanEqual_antisymmetric_int :
  ∀ (N : nat) (null : vec bool N) (x y : vec Z N),
    lessThanEqual null x y ≫= all = Some true →
    lessThanEqual null y x ≫= all = Some true →
    x = y.
Proof.
  intros N null x y. rewrite !lessThanEqual_zip. cbn [mbind option_bind].
  rewrite !all_forallb. intros [= Hxy] [= Hyx].
  apply vec_eq. intros i.
  pose proof (proj1 (forallb_vec _) Hxy i) as Hxy'.
  pose proof (proj1 (forallb_vec _) Hyx i) as Hyx'.
  rewrite vlookup_zip_with in *. simpl in *.
  apply Z.leb_le in Hxy', Hyx'. lia.
Qed.

(** [all_lessThanEqual_antisymmetric_int] at x = y = (7, -2). *)
Lemma all_lessThanEqual_antisymmetric_int_witness :
  let x := [# 7; -2]%Z in
  let stale := [# false; false] in
  lessThanEqual stale x x ≫= all = Some true ∧ x = x.
Proof.
  intros x stale. split; [reflexivity|].
  apply (all_lessThanEqual_antisymmetric_int 2 stale x x); reflexivity.
Defined.
